(** * datashader/core.py

    A shallow embedding of [datashader/core.py]: the axis policies
    ([Axis], [LinearAxis], [LogAxis]), the [Canvas] configuration object and
    the [bypixel] orchestrator, followed by the properties proved about them.

    Numbers.  The module computes on Python floats (IEEE-754 binary64) and on
    numpy [float64] arrays.  The code is embedded over an abstract
    arithmetic ([Number]) whose instance [binary64] is Rocq's primitive
    floats, bit-exact for [- * /] and [==].  [np.log10] and [10**x] are
    library functions: they stay parameters ([Elementary]).
    The decorator [ngjit] (numba's [jit] in nopython mode) compiles [mapper]
    and [inverse_mapper] without changing what they compute; a scalar result
    comes back as a Python float, so the division in
    [scale_and_translation] is Python's, which converts its int operand
    (raising [OverflowError] when it is too large) and raises on a zero
    divisor, while the one in [compute_index] is numpy's, which does not
    raise.

    The bounds of a range are Python floats.  Integer bounds are not
    modelled: numba hands an int back as an int, and Python then subtracts
    and negates on ints.

    Exceptions are explicit: a function that can raise returns a [result].

    Outside the model: the limits of memory and of the size of an array. *)

From Stdlib Require Import ZArith List Lia Floats.
From stdpp Require Import base option list gmap strings.

(* ===================================================================== *)
(** ** Python exceptions and results *)
(* ===================================================================== *)

(** The exceptions that can leave the module.  [OtherError] stands for
    whatever an external collaborator (schema inference, a glyph, a summary,
    a backend pipeline) raises on its own. *)
Inductive exn : Type :=
| ZeroDivisionError
| OverflowError
| KeyError (key : string)
| ValueError (msg : string)
| OtherError (name : string).

Inductive result (A : Type) : Type :=
| Ok (a : A)
| Raise (e : exn).
Arguments Ok {A} a.
Arguments Raise {A} e.

#[global] Instance result_ret : MRet result := fun _ a => Ok a.
#[global] Instance result_bind : MBind result := fun _ _ k m =>
  match m with
  | Ok a => k a
  | Raise e => Raise e
  end.

Definition is_ok {A} (r : result A) : bool :=
  match r with Ok _ => true | Raise _ => false end.

(* ===================================================================== *)
(** ** Arithmetic *)
(* ===================================================================== *)

(** What the module asks of its numbers: the cast of an integer array
    element ([of_int], which never raises), unary minus, [-], [*], the IEEE
    quotient (what numpy computes elementwise, never raising), the
    comparison [==], and the conversion Python applies to an int operand of
    a float operation ([to_float], which raises [OverflowError] when the int
    is too large for a float). *)
Class Number (F : Type) : Type := {
  of_int : Z -> F;
  fneg : F -> F;
  fsub : F -> F -> F;
  fmul : F -> F -> F;
  fdiv : F -> F -> F;
  feq : F -> F -> bool;
  to_float : Z -> result F
}.

(** [np.log10] and [10**x]. *)
Class Elementary (F : Type) : Type := {
  log10 : F -> F;
  pow10 : F -> F
}.

Declare Scope num_scope.
Delimit Scope num_scope with num.
Notation "x - y" := (fsub x y) : num_scope.
Notation "x * y" := (fmul x y) : num_scope.
Notation "x / y" := (fdiv x y) : num_scope.
Notation "- x" := (fneg x) : num_scope.
Notation "x == y" := (feq x y) (at level 70, no associativity) : num_scope.
Notation "x != y" := (negb (feq x y)) (at level 70, no associativity) : num_scope.

(** Python's [a / b] on two floats (true division, [from __future__ import
    division]): a divisor equal to [0.0] raises [ZeroDivisionError],
    anything else is the IEEE quotient. *)
Definition truediv `{Number F} (a b : F) : result F :=
  if (b == of_int 0)%num then Raise ZeroDivisionError else Ok (a / b)%num.

(** Python's [i / b] for an int [i] and a float [b]: the int is converted
    first, then the floats are divided. *)
Definition int_truediv `{Number F} (i : Z) (b : F) : result F :=
  a ← to_float i;
  truediv a b.

(* ===================================================================== *)
(** ** class Axis *)
(* ===================================================================== *)

(** The concrete classes an axis object can be an instance of, that is, the
    possible values of [type(self)].  The base class [Axis] defines neither
    [mapper] nor [inverse_mapper], so the objects that carry a policy are
    instances of its two subclasses. *)
Inductive axis_type : Type :=
| type_LinearAxis
| type_LogAxis.

#[global] Instance axis_type_eq_dec : EqDecision axis_type.
Proof. solve_decision. Defined.

(** An axis object: its identity ([id(self)]), its class, and the two
    attributes every concrete class defines.  The classes have no
    [__init__] and no instance attributes. *)
Record Axis (F : Type) : Type := {
  py_id : nat;
  py_type : axis_type;
  mapper : F -> F;
  inverse_mapper : F -> F
}.
Arguments py_id {F} _.
Arguments py_type {F} _.
Arguments mapper {F} _ _.
Arguments inverse_mapper {F} _ _.

Section AxisMethods.
Context {F : Type} `{Number F}.

(** [hash(type(self))]: the interpreter's hash of a class object. *)
Variable type_hash : axis_type -> Z.

Definition __eq__ (self other : Axis F) : bool :=
  bool_decide (py_type self = py_type other).

Definition __ne__ (self other : Axis F) : bool :=
  negb (__eq__ self other).

Definition __hash__ (self : Axis F) : Z :=
  type_hash (py_type self).

Definition scale_and_translation (self : Axis F) (range : F * F) (n : Z)
  : result (F * F) :=
  let start := mapper self range.1 in
  let end_ := mapper self range.2 in
  s ← int_truediv (n - 1) (end_ - start)%num;
  let t := (- start * s)%num in
  mret (s, t).

(** [np.arange(n)]: the integers [0 .. n-1], none when [n <= 0]. *)
Definition arange (n : Z) : list Z := seqZ 0 n.

(** The arithmetic is numpy's, elementwise over the array [px], and
    [inverse_mapper] is applied to the whole array. *)
Definition compute_index (self : Axis F) (n : Z) (st : F * F) : list F :=
  let px := arange n in
  let '(s, t) := st in
  inverse_mapper self <$> ((fun p => (of_int p - t) / s)%num <$> px).

End AxisMethods.

(** [class LinearAxis]: [mapper] is the identity and [inverse_mapper] is
    bound to the same function. *)
Definition LinearAxis {F : Type} (oid : nat) : Axis F :=
  let mapper := fun x : F => x in
  {| py_id := oid; py_type := type_LinearAxis;
     mapper := mapper; inverse_mapper := mapper |}.

(** [class LogAxis]. *)
Definition LogAxis {F : Type} `{Elementary F} (oid : nat) : Axis F :=
  {| py_id := oid; py_type := type_LogAxis;
     mapper := fun x => log10 x; inverse_mapper := fun x => pow10 x |}.

(* ===================================================================== *)
(** ** class Canvas *)
(* ===================================================================== *)

(** [d[k]] on a dict with string keys. *)
Definition getitem {V : Type} (d : gmap string V) (k : string) : result V :=
  match d !! k with
  | Some v => Ok v
  | None => Raise (KeyError k)
  end.

(** The module-level table of the two axis singletons. *)
Definition _axis_lookup {F : Type} `{Elementary F} : gmap string (Axis F) :=
  {[ "linear" := LinearAxis 0; "log" := LogAxis 1 ]}.

(** [x_range] and [y_range] are [None] or a pair of bounds. *)
Record Canvas (F : Type) : Type := {
  plot_width : Z;
  plot_height : Z;
  x_range : option (F * F);
  y_range : option (F * F);
  x_axis : Axis F;
  y_axis : Axis F
}.
Arguments plot_width {F} _.
Arguments plot_height {F} _.
Arguments x_range {F} _.
Arguments y_range {F} _.
Arguments x_axis {F} _.
Arguments y_axis {F} _.

(** [tuple(r) if r else r] on a range that is [None] or a pair. *)
Definition tuple_if_given {F : Type} (r : option (F * F)) : option (F * F) :=
  match r with
  | Some (lo, hi) => Some (lo, hi)
  | None => r
  end.

(** [Canvas.__init__], every argument given explicitly (the defaults are
    [600], [600], [None], [None], ['linear'], ['linear']); the two lookups
    happen in the order of the assignments. *)
Definition __init__ {F : Type} `{Elementary F}
    (plot_width plot_height : Z) (x_range y_range : option (F * F))
    (x_axis_type y_axis_type : string) : result (Canvas F) :=
  let x_range := tuple_if_given x_range in
  let y_range := tuple_if_given y_range in
  x_axis ← getitem _axis_lookup x_axis_type;
  y_axis ← getitem _axis_lookup y_axis_type;
  mret {| plot_width := plot_width; plot_height := plot_height;
          x_range := x_range; y_range := y_range;
          x_axis := x_axis; y_axis := y_axis |}.

(* ===================================================================== *)
(** ** bypixel *)
(* ===================================================================== *)

(** What [bypixel] takes from outside the module: [odo.discover],
    [datashape.predicates.istabular], the [measure] attribute of a
    datashape, the [validate] methods of glyphs and summaries, the glyph
    constructor [Point], and [pipeline], the module-level [Dispatcher]
    instance, called like a function.  Each of the fallible ones either
    returns or raises. *)
Class Collaborators (F : Type) : Type := {
  Source : Type;
  DShape : Type;
  Schema : Type;
  Column : Type;
  Glyph : Type;
  Summary : Type;
  Agg : Type;
  discover : Source -> result DShape;
  istabular : DShape -> bool;
  measure : DShape -> Schema;
  glyph_validate : Glyph -> Schema -> result unit;
  summary_validate : Summary -> Schema -> result unit;
  Point : Column -> Column -> Glyph;
  pipeline : Source -> Schema -> Canvas F -> Glyph -> Summary -> result Agg
}.

Section Orchestrator.
Context {F : Type} {W : Collaborators F}.

(** The calls [bypixel] makes to its fallible collaborators, recorded in
    the order they happen. *)
Inductive call : Type :=
| call_discover (source : Source)
| call_glyph_validate (glyph : Glyph) (schema : Schema)
| call_summary_validate (summary : Summary) (schema : Schema)
| call_pipeline (source : Source) (schema : Schema) (canvas : Canvas F)
                (glyph : Glyph) (summary : Summary).

(** A computation that appends to the log of calls and returns or raises;
    a raise keeps the log as it stands and skips what follows. *)
Definition M (A : Type) : Type := list call -> list call * result A.

#[local] Instance M_ret : MRet M := fun _ a log => (log, Ok a).
#[local] Instance M_bind : MBind M := fun _ _ k m log =>
  match m log with
  | (log', Ok a) => k a log'
  | (log', Raise e) => (log', Raise e)
  end.

Definition raise {A : Type} (e : exn) : M A := fun log => (log, Raise e).

Definition invoke {A : Type} (c : call) (r : result A) : M A :=
  fun log => (log ++ [c], r).

Definition bypixel (source : Source) (canvas : Canvas F) (glyph : Glyph)
    (summary : Summary) : M Agg :=
  dshape ← invoke (call_discover source) (discover source);
  if negb (istabular dshape) then
    raise (ValueError "source must be tabular")
  else
    let schema := measure dshape in
    invoke (call_glyph_validate glyph schema) (glyph_validate glyph schema);;
    invoke (call_summary_validate summary schema)
           (summary_validate summary schema);;
    invoke (call_pipeline source schema canvas glyph summary)
           (pipeline source schema canvas glyph summary).

(** [Canvas.points]. *)
Definition points (self : Canvas F) (source : Source) (x y : Column)
    (agg : Summary) : M Agg :=
  bypixel source self (Point x y) agg.

(** Whether the dispatcher was called. *)
Definition is_dispatch (c : call) : bool :=
  match c with call_pipeline _ _ _ _ _ => true | _ => false end.

Definition dispatched (log : list call) : bool := existsb is_dispatch log.

End Orchestrator.

(* ===================================================================== *)
(** ** The arithmetic of the module: binary64 *)
(* ===================================================================== *)

(** The binary64 nearest to an integer, ties to even, and an infinity for
    an integer beyond the range of binary64.  This is numpy's cast of an
    integer array element, and the value of Python's conversion where
    Python converts. *)
Definition float_of_int (i : Z) : float :=
  SF2Prim (binary_normalize prec emax i 0 false).

(** Python's conversion of an int operand to a float: the nearest binary64,
    and [OverflowError] ("int too large to convert to float") when rounding
    leaves the range of binary64, that is, from [2^1024 - 2^970] on in
    magnitude. *)
Definition float_of_int_checked (i : Z) : result float :=
  if is_infinity (float_of_int i) then Raise OverflowError
  else Ok (float_of_int i).

(** IEEE-754 binary64: Python's [float] and numpy's [float64]. *)
#[global] Instance binary64 : Number float := {|
  of_int := float_of_int;
  fneg := PrimFloat.opp;
  fsub := PrimFloat.sub;
  fmul := PrimFloat.mul;
  fdiv := PrimFloat.div;
  feq := PrimFloat.eqb;
  to_float := float_of_int_checked
|}.

(** Numbers as written: a float, or an application of [np.log10] or of
    [10**x] that is recorded and not evaluated.  This gives the table of
    axes a closed instance of [Elementary] that says nothing about what the
    two library functions compute. *)
Inductive expr : Type :=
| num (x : float)
| log10_of (a : expr)
| pow10_of (a : expr).

#[global] Instance uninterpreted : Elementary expr := {|
  log10 := log10_of;
  pow10 := pow10_of
|}.

(** [numpy.isclose(a, b)] with its default tolerances ([rtol = 1e-05],
    [atol = 1e-08], written here as the binary64 values those literals
    denote): the reading of "approximately equal" used for binary64.
    Non-finite operands are close only when they are equal. *)
Definition isclose (a b : float) : bool :=
  if is_finite a && is_finite b then
    PrimFloat.leb (PrimFloat.abs (a - b))
      (0x1.5798ee2308c3ap-27 + 0x1.4f8b588e368f1p-17 * PrimFloat.abs b)%float
  else PrimFloat.eqb a b.

(** Whether a float, seen through its specification, is a zero. *)
Definition sf_is_zero (x : spec_float) : bool :=
  match x with S754_zero _ => true | _ => false end.

(** A zero difference means equal operands: true of IEEE-754 arithmetic
    thanks to gradual underflow. *)
Class ZeroDifference (F : Type) `{Number F} : Prop :=
  zero_difference : forall x y : F,
    (x - y == of_int 0)%num = true -> (x == y)%num = true.

(** The names [Canvas.__init__] accepts as an axis type. *)
Definition recognized (name : string) : bool :=
  bool_decide (name = "linear" \/ name = "log").

(** A small world to run [bypixel] in.  A source is a table, given by its
    column names, or a scalar; its datashape is the source itself and the
    schema of a table is its list of columns.  A glyph names two columns, a
    summary one, and validation asks for these columns in the schema.  The
    backend is a stand-in that returns the number of columns. *)
Inductive demo_source : Type :=
| demo_table (columns : list string)
| demo_scalar.

Definition demo_validate (needed schema : list string) : result unit :=
  if forallb (fun c => existsb (String.eqb c) schema) needed then Ok tt
  else Raise (OtherError "missing column").

Definition demo_world : Collaborators float := {|
  Source := demo_source;
  DShape := demo_source;
  Schema := list string;
  Column := string;
  Glyph := string * string;
  Summary := string;
  Agg := nat;
  discover := fun source => Ok source;
  istabular := fun dshape =>
    match dshape with demo_table _ => true | demo_scalar => false end;
  measure := fun dshape =>
    match dshape with demo_table columns => columns | demo_scalar => [] end;
  glyph_validate := fun glyph schema => demo_validate [glyph.1; glyph.2] schema;
  summary_validate := fun summary schema => demo_validate [summary] schema;
  Point := fun x y => (x, y);
  pipeline := fun _ schema _ _ _ => Ok (length schema)
|}.

(** [Canvas(plot_width=10, plot_height=10, x_range=(0, 9), y_range=(0, 9))]. *)
Definition demo_canvas : Canvas float := {|
  plot_width := 10; plot_height := 10;
  x_range := Some (0, 9)%float; y_range := Some (0, 9)%float;
  x_axis := LinearAxis 0; y_axis := LinearAxis 0
|}.

(* ===================================================================== *)
(** ** Axis: equality and hashing *)
(* ===================================================================== *)

Section AxisEquality.
Context {F : Type}.
Implicit Types a b : Axis F.

Lemma eq_iff_same_type a b : __eq__ a b = true <-> py_type a = py_type b.
Proof. unfold __eq__. apply bool_decide_eq_true. Qed.

Lemma eq_refl_axis a : __eq__ a a = true.
Proof. by apply eq_iff_same_type. Qed.

Lemma eq_sym_axis a b : __eq__ a b = __eq__ b a.
Proof. unfold __eq__. apply bool_decide_ext. split; congruence. Qed.

Lemma eq_trans_axis a b c :
  __eq__ a b = true -> __eq__ b c = true -> __eq__ a c = true.
Proof. rewrite !eq_iff_same_type. congruence. Qed.

(** C8.  Two axis objects compare equal exactly when they are instances of
    the same class, whatever their identities: two instances of one class
    are equal even when they are distinct objects, instances of different
    classes are unequal, and [!=] is the negation of [==]. *)
Theorem axis_eq_same_variant `{Elementary F} a b :
  (__eq__ a b = true <-> py_type a = py_type b) /\
  (__eq__ a b = false <-> py_type a <> py_type b) /\
  __ne__ a b = negb (__eq__ a b) /\
  (forall i j : nat, __eq__ (F:=F) (LinearAxis i) (LinearAxis j) = true) /\
  (forall i j : nat, __eq__ (LogAxis i) (LogAxis j) = true) /\
  (forall i j : nat, __eq__ (LinearAxis i) (LogAxis j) = false) /\
  (forall i j : nat, __eq__ (LogAxis i) (LinearAxis j) = false).
Proof.
  split; [apply eq_iff_same_type|].
  split; [unfold __eq__; apply bool_decide_eq_false|].
  split; [reflexivity|].
  repeat split; intros i j; reflexivity.
Qed.

(** C10.  Axis objects that compare equal have the same hash, whatever
    the interpreter's hash of a class object is. *)
Theorem axis_hash_respects_eq (type_hash : axis_type -> Z) a b :
  __eq__ a b = true -> __hash__ type_hash a = __hash__ type_hash b.
Proof.
  intros Hab. apply eq_iff_same_type in Hab.
  unfold __hash__. by rewrite Hab.
Qed.

Lemma axis_hash_by_type (type_hash : axis_type -> Z) a b :
  py_type a = py_type b -> __hash__ type_hash a = __hash__ type_hash b.
Proof. unfold __hash__. by intros ->. Qed.

End AxisEquality.

(** Equality and hashing at work on the two module-level singletons and on a
    second linear axis: same hash for the two linear objects. *)
Lemma axis_hash_respects_eq_witness :
  __eq__ (F:=float) (LinearAxis 0) (LinearAxis 7) = true /\
  __hash__ (fun c => match c with type_LinearAxis => 11 | type_LogAxis => 42 end)%Z
           (LinearAxis (F:=float) 0) =
  __hash__ (fun c => match c with type_LinearAxis => 11 | type_LogAxis => 42 end)%Z
           (LinearAxis (F:=float) 7).
Proof.
  split; [reflexivity|].
  apply (axis_hash_respects_eq _ (LinearAxis 0) (LinearAxis 7)). reflexivity.
Defined.

(* ===================================================================== *)
(** ** Axis: scale_and_translation and compute_index, any arithmetic *)
(* ===================================================================== *)

Section AxisGeneric.
Context {F : Type} `{Number F}.
Implicit Types (self : Axis F) (n : Z).
Local Open Scope num_scope.

Lemma truediv_nonzero (a b : F) :
  (b == of_int 0) = false -> truediv a b = Ok (a / b).
Proof. unfold truediv. by intros ->. Qed.

Lemma truediv_zero (a b : F) :
  (b == of_int 0) = true -> truediv a b = Raise ZeroDivisionError.
Proof. unfold truediv. by intros ->. Qed.

Lemma int_truediv_overflow (i : Z) (b : F) (e : exn) :
  to_float i = Raise e -> int_truediv i b = Raise e.
Proof. unfold int_truediv. by intros ->. Qed.

(** Once [n - 1] is converted, the function returns exactly when the mapped
    width is not [== 0]. *)
Lemma scale_and_translation_nonzero self (start end_ : F) n (a : F) :
  to_float (n - 1) = Ok a ->
  (mapper self end_ - mapper self start == of_int 0) = false ->
  scale_and_translation self (start, end_) n =
    Ok (a / (mapper self end_ - mapper self start),
        - mapper self start * (a / (mapper self end_ - mapper self start))).
Proof.
  intros Ha Hw. unfold scale_and_translation, int_truediv. cbn [fst snd].
  rewrite Ha. cbn. by rewrite (truediv_nonzero _ _ Hw).
Qed.

Lemma scale_and_translation_zero self (start end_ : F) n (a : F) :
  to_float (n - 1) = Ok a ->
  (mapper self end_ - mapper self start == of_int 0) = true ->
  scale_and_translation self (start, end_) n = Raise ZeroDivisionError.
Proof.
  intros Ha Hw. unfold scale_and_translation, int_truediv. cbn [fst snd].
  rewrite Ha. cbn. by rewrite (truediv_zero _ _ Hw).
Qed.

Lemma scale_and_translation_overflow self (start end_ : F) n (e : exn) :
  to_float (n - 1) = Raise e ->
  scale_and_translation self (start, end_) n = Raise e.
Proof.
  intros Ha. unfold scale_and_translation. cbn [fst snd].
  by rewrite (int_truediv_overflow _ _ _ Ha).
Qed.

(** A width that is not [== 0] when the ends differ. *)
Lemma mapped_width_nonzero `{!ZeroDifference F} (a b : F) :
  (a != b) = true -> (a - b == of_int 0) = false.
Proof.
  intros Hne. destruct (a - b == of_int 0) eqn:Hw; [|done].
  apply zero_difference in Hw. rewrite Hw in Hne. discriminate.
Qed.

Lemma length_arange n : length (arange n) = Z.to_nat n.
Proof. apply length_seqZ. Qed.

Lemma lookup_arange n (px : Z) :
  (0 <= px < n)%Z -> arange n !! Z.to_nat px = Some px.
Proof.
  intros Hpx. unfold arange.
  rewrite lookup_seqZ. split; lia.
Qed.

Lemma length_compute_index self n (st : F * F) :
  length (compute_index self n st) = Z.to_nat n.
Proof.
  destruct st as [s t]. unfold compute_index.
  by rewrite !length_fmap, length_arange.
Qed.

Lemma lookup_compute_index self n (s t : F) (px : Z) :
  (0 <= px < n)%Z ->
  compute_index self n (s, t) !! Z.to_nat px =
    Some (inverse_mapper self ((of_int px - t) / s)).
Proof.
  intros Hpx. unfold compute_index.
  by rewrite !list_lookup_fmap, (lookup_arange _ _ Hpx).
Qed.

(** C4.  [compute_index(n, (s, t))] is a sequence of [n] values, and the
    one at pixel index [px] is [inverse_mapper((px - t) / s)]. *)
Theorem compute_index_elements self n (s t : F) (px : Z) :
  (1 <= n)%Z -> (s != of_int 0) = true -> (0 <= px < n)%Z ->
  length (compute_index self n (s, t)) = Z.to_nat n /\
  compute_index self n (s, t) !! Z.to_nat px =
    Some (inverse_mapper self ((of_int px - t) / s)).
Proof.
  intros _ _ Hpx. split.
  - apply length_compute_index.
  - by apply lookup_compute_index.
Qed.

End AxisGeneric.

(* ===================================================================== *)
(** ** binary64: when a difference is zero *)
(* ===================================================================== *)

(** The facts below are read off the specification of the primitive floats
    ([Prim2SF], [SFsub], [SFcompare]): a subtraction of two valid floats
    rounds to zero only when the aligned mantissas cancel, because a
    nonzero integer mantissa at an exponent no less than [emin] never
    rounds to zero. *)

Section Binary64.
Local Open Scope Z_scope.

Lemma SFeqb_zero_r (x : spec_float) :
  SFeqb x (S754_zero false) = sf_is_zero x.
Proof. by destruct x as [ | [] | | [] ? ? ]. Qed.

Lemma eqb_zero_spec (x : float) :
  PrimFloat.eqb x 0 = sf_is_zero (Prim2SF x).
Proof. rewrite FloatAxioms.eqb_spec. apply SFeqb_zero_r. Qed.

Lemma digits2_size (m : positive) : digits2_pos m = Pos.size m.
Proof. induction m; simpl; congruence. Qed.

Lemma digits2_bounds (m : positive) :
  2 ^ (Z.pos (digits2_pos m) - 1) <= Z.pos m < 2 ^ Z.pos (digits2_pos m).
Proof.
  rewrite digits2_size. split.
  - pose proof (Pos.size_le m) as Hle.
    assert (2 ^ Z.pos (Pos.size m) <= 2 * Z.pos m) as Hz.
    { change 2 with (Z.pos 2) at 1. rewrite <- Pos2Z.inj_pow. lia. }
    replace (Z.pos (Pos.size m)) with (Z.succ (Z.pos (Pos.size m) - 1)) in Hz by lia.
    rewrite Z.pow_succ_r in Hz by lia. lia.
  - pose proof (Pos.size_gt m) as Hgt.
    change 2 with (Z.pos 2). rewrite <- Pos2Z.inj_pow. lia.
Qed.

Lemma shr_1_m (r : shr_record) :
  0 <= shr_m r -> shr_m (shr_1 r) = shr_m r / 2.
Proof.
  destruct r as [m b s]. cbn [shr_m]. intros Hm.
  destruct m as [ | [p|p| ] | p ]; cbn [shr_1 shr_m]; try done; try lia.
  - apply Z.div_unique with 1; lia.
  - apply Z.div_unique with 0; lia.
Qed.

Lemma iter_shr_1_m (p : positive) (r : shr_record) :
  0 <= shr_m r -> shr_m (SpecFloat.iter_pos shr_1 p r) = shr_m r / 2 ^ Z.pos p.
Proof.
  revert r. induction p as [p IH|p IH| ]; intros r Hr; cbn [SpecFloat.iter_pos].
  - assert (0 <= shr_m (shr_1 r)) as H1.
    { rewrite shr_1_m by done. apply Z.div_pos; lia. }
    assert (0 <= shr_m (SpecFloat.iter_pos shr_1 p (shr_1 r))) as H2.
    { rewrite IH by done. apply Z.div_pos; lia. }
    rewrite IH, IH, shr_1_m by done.
    rewrite !Z.div_div by lia. f_equal.
    replace (Z.pos p~1) with (1 + Z.pos p + Z.pos p) by lia.
    rewrite !Z.pow_add_r by lia. change (2 ^ 1) with 2. ring.
  - assert (0 <= shr_m (SpecFloat.iter_pos shr_1 p r)) as H2.
    { rewrite IH by done. apply Z.div_pos; lia. }
    rewrite IH, IH by done.
    rewrite !Z.div_div by lia. f_equal.
    replace (Z.pos p~0) with (Z.pos p + Z.pos p) by lia.
    by rewrite Z.pow_add_r by lia.
  - by rewrite shr_1_m.
Qed.

(** Shifting a positive mantissa right to its format exponent leaves a positive mantissa *)
Lemma shr_fexp_positive (m e : Z) (l : location) :
  0 < m -> SpecFloat.emin prec emax <= e ->
  0 < shr_m (shr_fexp prec emax m e l).1 /\ SpecFloat.emin prec emax <= (shr_fexp prec emax m e l).2.
Proof.
  intros Hm He. unfold shr_fexp, shr.
  assert (shr_m (shr_record_of_loc m l) = m) as Hrec.
  { by destruct l as [ | [] ]. }
  destruct (fexp prec emax (Zdigits2 m + e) - e) as [ | n | n ] eqn:Hn;
    cbn [fst snd]; rewrite ?Hrec; try (split; lia).
  destruct m as [ | m | m ]; try lia. cbn [Zdigits2] in Hn.
  rewrite iter_shr_1_m by (rewrite Hrec; lia). rewrite Hrec.
  pose proof (digits2_bounds m) as [Hlo _].
  unfold fexp in Hn.
  assert (Z.pos n = Z.pos (digits2_pos m) - prec) as Hshift by lia.
  split; [|lia].
  apply Z.div_str_pos. split; [apply Z.pow_pos_nonneg; lia|].
  etrans; [|exact Hlo]. apply Z.pow_le_mono_r; [lia|].
  unfold prec in *. lia.
Qed.

Lemma round_nearest_even_positive (m : Z) (l : location) :
  0 < m -> 0 < round_nearest_even m l.
Proof. intros Hm. destruct l as [ | [] ]; cbn; try done; try lia. destruct (Z.even m); lia. Qed.

Lemma binary_round_aux_nonzero (s : bool) (m e : Z) (l : location) :
  0 < m -> SpecFloat.emin prec emax <= e ->
  sf_is_zero (binary_round_aux prec emax s m e l) = false.
Proof.
  intros Hm He. unfold binary_round_aux.
  destruct (shr_fexp_positive m e l Hm He) as [Hm1 He1].
  destruct (shr_fexp prec emax m e l) as [mrs' e']. cbn [fst snd] in *.
  pose proof (round_nearest_even_positive _ (loc_of_shr_record mrs') Hm1) as Hm2.
  destruct (shr_fexp_positive _ e' loc_Exact Hm2 He1) as [Hm3 _].
  destruct (shr_fexp prec emax _ e' loc_Exact) as [mrs'' e'']. cbn [fst snd] in *.
  destruct (shr_m mrs''); try lia.
  by destruct (_ <=? _).
Qed.

Lemma binary_round_nonzero (s : bool) (m : positive) (e : Z) :
  SpecFloat.emin prec emax <= e ->
  sf_is_zero (binary_round prec emax s m e) = false.
Proof.
  intros He. unfold binary_round, shl_align.
  set (fe := fexp prec emax (Z.pos (digits2_pos m) + e)).
  assert (SpecFloat.emin prec emax <= fe) by (unfold fe, fexp; lia).
  destruct (fe - e); apply binary_round_aux_nonzero; lia.
Qed.

Lemma binary_normalize_zero (m e : Z) (szero : bool) :
  SpecFloat.emin prec emax <= e ->
  sf_is_zero (binary_normalize prec emax m e szero) = true -> m = 0.
Proof.
  intros He. destruct m; cbn [binary_normalize]; try done;
    by rewrite binary_round_nonzero.
Qed.

Lemma bounded_canonical (m : positive) (e : Z) :
  bounded prec emax m e = true ->
  fexp prec emax (Z.pos (digits2_pos m) + e) = e.
Proof.
  unfold bounded, canonical_mantissa. intros Hb.
  apply andb_prop in Hb as [Hc _]. by apply Z.eqb_eq.
Qed.

Lemma bounded_emin (m : positive) (e : Z) :
  bounded prec emax m e = true -> SpecFloat.emin prec emax <= e.
Proof. intros Hb. apply bounded_canonical in Hb. unfold fexp in Hb. lia. Qed.

Lemma digits2_shift (m d : positive) :
  Z.pos (digits2_pos (Pos.iter xO m d)) = Z.pos (digits2_pos m) + Z.pos d.
Proof.
  induction d as [|d IH] using Pos.peano_ind.
  - cbn. lia.
  - rewrite Pos.iter_succ. cbn [digits2_pos]. lia.
Qed.

(** Aligning a canonical mantissa with a larger exponent to a smaller
    one changes its number of digits, so two canonical floats whose aligned
    mantissas agree have the same exponent and the same mantissa. *)
Lemma aligned_eq (mx my : positive) (ex ey : Z) :
  bounded prec emax mx ex = true -> bounded prec emax my ey = true ->
  (shl_align mx ex (Z.min ex ey)).1 = (shl_align my ey (Z.min ex ey)).1 ->
  ex = ey /\ mx = my.
Proof.
  intros Hx%bounded_canonical Hy%bounded_canonical. unfold shl_align.
  destruct (Z.min ex ey - ex) as [ | dx | dx ] eqn:Hdx;
    destruct (Z.min ex ey - ey) as [ | dy | dy ] eqn:Hdy;
    cbn [fst]; try lia; intros Hm.
  - subst mx. rewrite digits2_shift in Hx.
    replace (Z.pos (digits2_pos my) + Z.pos dy + ex)
      with (Z.pos (digits2_pos my) + ey) in Hx by lia. lia.
  - subst my. rewrite digits2_shift in Hy.
    replace (Z.pos (digits2_pos mx) + Z.pos dx + ey)
      with (Z.pos (digits2_pos mx) + ex) in Hy by lia. lia.
Qed.

Lemma SFcompare_refl_finite (s : bool) (m : positive) (e : Z) :
  SFcompare (S754_finite s m e) (S754_finite s m e) = Some Eq.
Proof.
  cbn. rewrite Z.compare_refl, Pcompare_refl. by destruct s.
Qed.

Lemma SFsub_zero_eq (x y : spec_float) :
  valid_binary x = true -> valid_binary y = true ->
  sf_is_zero (SF64sub x y) = true -> SFeqb x y = true.
Proof.
  intros Hx Hy.
  destruct x as [sx|sx| |sx mx ex], y as [sy|sy| |sy my ey];
    try done; try (by destruct sx, sy).
  cbn [valid_binary] in Hx, Hy. unfold SF64sub. cbn [SFsub].
  intros Hz. apply binary_normalize_zero in Hz;
    [|pose proof (bounded_emin _ _ Hx); pose proof (bounded_emin _ _ Hy); lia].
  assert (sx = sy /\
          (shl_align mx ex (Z.min ex ey)).1 = (shl_align my ey (Z.min ex ey)).1)
    as [-> Hm].
  { destruct sx, sy; cbn [cond_Zopp] in Hz; split; try done; try lia. }
  destruct (aligned_eq _ _ _ _ Hx Hy Hm) as [-> ->].
  unfold SFeqb. by rewrite SFcompare_refl_finite.
Qed.

Lemma SFcompare_eq_finite (s1 s2 : bool) (m1 m2 : positive) (e1 e2 : Z) :
  SFcompare (S754_finite s1 m1 e1) (S754_finite s2 m2 e2) = Some Eq ->
  s1 = s2 /\ m1 = m2 /\ e1 = e2.
Proof.
  cbn. destruct s1, s2; try done;
    destruct (e1 ?= e2) eqn:He; try done;
    apply Z.compare_eq in He; intros [= Hm].
  - apply (f_equal CompOpp) in Hm. rewrite CompOpp_involutive in Hm.
    by apply Pcompare_Eq_eq in Hm.
  - by apply Pcompare_Eq_eq in Hm.
Qed.

Lemma SFsub_eq_zero (x y : spec_float) :
  SFeqb x y = true ->
  (sf_is_zero y = true \/ exists s m e, y = S754_finite s m e) ->
  sf_is_zero (SF64sub x y) = true.
Proof.
  unfold SFeqb. intros Heq Hfin.
  destruct x as [sx|sx| |sx mx ex], y as [sy|sy| |sy my ey];
    try done; try (by destruct sx, sy);
    try (by destruct Hfin as [?|(?&?&?&?)]).
  destruct (SFcompare _ _) as [[]|] eqn:Hc; try done.
  apply SFcompare_eq_finite in Hc as (-> & -> & ->).
  unfold SF64sub. cbn [SFsub]. by rewrite Z.sub_diag.
Qed.

Lemma is_finite_spec (x : float) :
  is_finite x = true ->
  sf_is_zero (Prim2SF x) = true \/ exists s m e, Prim2SF x = S754_finite s m e.
Proof.
  unfold is_finite, is_nan, is_infinity.
  rewrite !FloatAxioms.eqb_spec, abs_spec.
  change (Prim2SF infinity) with (S754_infinity false).
  destruct (Prim2SF x) as [s|s| |s m e]; intros Hfin.
  - by left.
  - by destruct s.
  - done.
  - right. eauto.
Qed.

(** [x - y == 0.0] only if [x == y]. *)
Lemma float_sub_zero_eq (x y : float) :
  PrimFloat.eqb (x - y) 0 = true -> PrimFloat.eqb x y = true.
Proof.
  rewrite eqb_zero_spec, sub_spec, FloatAxioms.eqb_spec.
  apply SFsub_zero_eq; apply Prim2SF_valid.
Qed.

(** The IEEE instance of [ZeroDifference]. *)
#[global] Instance binary64_zero_difference : ZeroDifference float.
Proof. intros x y. apply float_sub_zero_eq. Qed.

(** For finite [y], [x == y] makes [x - y == 0.0]. *)
Lemma float_eq_sub_zero (x y : float) :
  is_finite y = true -> PrimFloat.eqb x y = true -> PrimFloat.eqb (x - y) 0 = true.
Proof.
  intros Hfin%is_finite_spec. rewrite eqb_zero_spec, sub_spec, FloatAxioms.eqb_spec.
  intros Heq. by apply SFsub_eq_zero.
Qed.
End Binary64.

(* ===================================================================== *)
(** ** binary64: what scale_and_translation returns *)
(* ===================================================================== *)

Lemma to_float_converts (i : Z) :
  is_infinity (float_of_int i) = false ->
  to_float i = Ok (float_of_int i).
Proof.
  intros Hi. change (float_of_int_checked i = Ok (float_of_int i)).
  unfold float_of_int_checked. by rewrite Hi.
Qed.

Lemma to_float_overflows (i : Z) :
  is_infinity (float_of_int i) = true ->
  to_float (F:=float) i = Raise OverflowError.
Proof.
  intros Hi. change (float_of_int_checked i = Raise OverflowError).
  unfold float_of_int_checked. by rewrite Hi.
Qed.

(** The three outcomes in binary64, by the conversion of [n - 1] and the
    test of the width against [0.0]. *)
Lemma scale_and_translation_returns (self : Axis float)
    (start end_ : float) (n : Z) :
  is_infinity (float_of_int (n - 1)) = false ->
  PrimFloat.eqb (mapper self end_ - mapper self start) 0 = false ->
  scale_and_translation self (start, end_) n =
    Ok (float_of_int (n - 1) / (mapper self end_ - mapper self start),
        - mapper self start *
          (float_of_int (n - 1) / (mapper self end_ - mapper self start)))%float.
Proof.
  intros Hn Hw.
  exact (scale_and_translation_nonzero self start end_ n _
           (to_float_converts _ Hn) Hw).
Qed.

Lemma scale_and_translation_divides_by_zero (self : Axis float)
    (start end_ : float) (n : Z) :
  is_infinity (float_of_int (n - 1)) = false ->
  PrimFloat.eqb (mapper self end_ - mapper self start) 0 = true ->
  scale_and_translation self (start, end_) n = Raise ZeroDivisionError.
Proof.
  intros Hn Hw.
  exact (scale_and_translation_zero self start end_ n _
           (to_float_converts _ Hn) Hw).
Qed.

Lemma scale_and_translation_cannot_convert (self : Axis float)
    (start end_ : float) (n : Z) :
  is_infinity (float_of_int (n - 1)) = true ->
  scale_and_translation self (start, end_) n = Raise OverflowError.
Proof.
  intros Hn.
  exact (scale_and_translation_overflow self start end_ n _
           (to_float_overflows _ Hn)).
Qed.




Lemma compute_index_elements_witness :
  (1 <= 10)%Z /\ (0 <= 3 < 10)%Z /\
  length (compute_index (LinearAxis 0) 10 (1, 0)%float) = 10%nat /\
  compute_index (LinearAxis 0) 10 (1, 0)%float !! 3%nat = Some 3%float.
Proof.
  assert (1 <= 10)%Z as Hn by lia.
  assert (0 <= 3 < 10)%Z as Hpx by lia.
  split; [exact Hn|]. split; [exact Hpx|].
  exact (compute_index_elements (LinearAxis 0) 10 1%float 0%float 3 Hn eq_refl Hpx).
Defined.

(** The round trip on that scenario, in binary64. *)
Example round_trip_scenario :
  (st ← scale_and_translation (LinearAxis 0) (0, 9)%float 10;
   mret (compute_index (LinearAxis 0) 10 st)) =
  Ok [0; 1; 2; 3; 4; 5; 6; 7; 8; 9]%float.
Proof. reflexivity. Qed.

Example linear_ne_log :
  __eq__ (F:=expr) (LinearAxis 0) (LogAxis 1) = false /\
  __ne__ (F:=expr) (LinearAxis 0) (LogAxis 1) = true.
Proof. by split. Qed.

Example compute_index_scenario :
  compute_index (LinearAxis 0) 10 (1, 0)%float = [0; 1; 2; 3; 4; 5; 6; 7; 8; 9]%float.
Proof. reflexivity. Qed.

(* ===================================================================== *)
(** ** Zero-width ranges *)
(* ===================================================================== *)

(** C2 in binary64.  A range whose two mapped ends are the same infinity
    has a NaN width: nothing is raised and both results are NaN. *)
Lemma infinite_range_returns_nan :
  (mapper (LinearAxis 0) infinity == mapper (LinearAxis 0) infinity)%num = true /\
  scale_and_translation (LinearAxis 0) (infinity, infinity) 10 = Ok (nan, nan).
Proof. split; reflexivity. Qed.

Lemma div_nan (x : float) : (x / nan)%float = nan.
Proof.
  apply Prim2SF_inj. rewrite div_spec.
  change (Prim2SF nan) with S754_nan. by destruct (Prim2SF x).
Qed.

Lemma mul_nan (x : float) : (x * nan)%float = nan.
Proof.
  apply Prim2SF_inj. rewrite mul_spec.
  change (Prim2SF nan) with S754_nan. by destruct (Prim2SF x).
Qed.

(** The same for any policy whose [mapper] sends both bounds to minus
    infinity, which is what [np.log10] does to a bound of [0.0]: for every
    pixel count whose [n - 1] converts, the result is [(nan, nan)] and
    nothing is raised. *)
Lemma minus_infinity_range_returns_nan (self : Axis float)
    (start end_ : float) (n : Z) :
  is_infinity (float_of_int (n - 1)) = false ->
  mapper self start = neg_infinity -> mapper self end_ = neg_infinity ->
  scale_and_translation self (start, end_) n = Ok (nan, nan).
Proof.
  intros Hn Hs He.
  rewrite scale_and_translation_returns; [|done|by rewrite Hs, He].
  rewrite Hs, He.
  change (neg_infinity - neg_infinity)%float with nan.
  by rewrite div_nan, mul_nan.
Qed.

(** C2, as the code has it.  In binary64, when the two mapped ends are
    equal ([==]) and finite, no pair is returned: the division raises
    [ZeroDivisionError], unless [n - 1] is too large for a float, in which
    case its conversion has raised [OverflowError] before.  The caller gets
    an error, not an infinite or NaN scale. *)
Theorem degenerate_range_raises (self : Axis float) (start end_ : float) (n : Z) :
  is_finite (mapper self start) = true ->
  (mapper self end_ == mapper self start)%num = true ->
  scale_and_translation self (start, end_) n =
    Raise (if is_infinity (float_of_int (n - 1)) then OverflowError
           else ZeroDivisionError).
Proof.
  intros Hfin Heq. destruct (is_infinity (float_of_int (n - 1))) eqn:Hn.
  - by apply scale_and_translation_cannot_convert.
  - apply scale_and_translation_divides_by_zero; [done|].
    by apply float_eq_sub_zero.
Qed.

Lemma degenerate_range_raises_witness :
  is_finite (mapper (LinearAxis 0) 5%float) = true /\
  (mapper (LinearAxis 0) 5%float == mapper (LinearAxis 0) 5%float)%num = true /\
  scale_and_translation (LinearAxis 0) (5, 5)%float 600 = Raise ZeroDivisionError.
Proof.
  split; [reflexivity|]. split; [reflexivity|].
  exact (degenerate_range_raises (LinearAxis 0) 5%float 5%float 600 eq_refl eq_refl).
Defined.

(* ===================================================================== *)
(** ** The round trip at the edge of the range of binary64 *)
(* ===================================================================== *)

(** On the linear axis over [(-2^1023, 2^1023)] the width overflows to
    infinity, the scale is [0.0], and the two-point index is
    [[nan; infinity]]: neither end of the range is recovered, either exactly
    or in the sense of [isclose]. *)
Example round_trip_overflows :
  (2 <= 2)%Z /\
  (mapper (LinearAxis 0) 0x1p1023%float !=
     mapper (LinearAxis 0) (-0x1p1023)%float)%num = true /\
  scale_and_translation (LinearAxis 0) (-0x1p1023, 0x1p1023)%float 2 =
    Ok (0, 0)%float /\
  compute_index (LinearAxis 0) 2 (0, 0)%float = [nan; infinity] /\
  isclose nan (-0x1p1023) = false /\
  isclose infinity 0x1p1023 = false.
Proof. split; [lia|]. repeat split; reflexivity. Qed.

(* ===================================================================== *)
(** ** The two policies *)
(* ===================================================================== *)

(** The linear policy's [mapper] and [inverse_mapper] return their argument
    unchanged, in any arithmetic. *)
Lemma linear_mapper_identity {F : Type} (oid : nat) (x : F) :
  mapper (LinearAxis oid) x = x /\ inverse_mapper (LinearAxis oid) x = x.
Proof. by split. Qed.

(* ===================================================================== *)
(** ** Canvas construction *)
(* ===================================================================== *)

Section CanvasInit.
Context {F : Type} `{Elementary F}.

Lemma tuple_if_given_id (r : option (F * F)) : tuple_if_given r = r.
Proof. by destruct r as [[lo hi]|]. Qed.

Lemma recognized_true (name : string) :
  recognized name = true <-> name = "linear" \/ name = "log".
Proof. unfold recognized. apply bool_decide_eq_true. Qed.

Lemma recognized_false (name : string) :
  recognized name = false <-> name <> "linear" /\ name <> "log".
Proof. unfold recognized. rewrite bool_decide_eq_false. tauto. Qed.

Lemma getitem_linear : getitem (_axis_lookup (F:=F)) "linear" = Ok (LinearAxis 0).
Proof. unfold getitem, _axis_lookup. by rewrite lookup_insert_eq. Qed.

Lemma getitem_log : getitem (_axis_lookup (F:=F)) "log" = Ok (LogAxis 1).
Proof.
  unfold getitem, _axis_lookup.
  rewrite lookup_insert_ne by done. by rewrite lookup_singleton_eq.
Qed.

Lemma getitem_unrecognized (name : string) :
  recognized name = false ->
  getitem (_axis_lookup (F:=F)) name = Raise (KeyError name).
Proof.
  intros [Hlin Hlog]%recognized_false. unfold getitem, _axis_lookup.
  rewrite lookup_insert_ne by done. by rewrite lookup_singleton_ne.
Qed.

Lemma getitem_recognized (name : string) :
  recognized name = true ->
  exists axis : Axis F,
    getitem _axis_lookup name = Ok axis /\
    (name = "linear" /\ axis = LinearAxis 0 \/
     name = "log" /\ axis = LogAxis 1).
Proof.
  intros [-> | ->]%recognized_true.
  - exists (LinearAxis 0). split; [apply getitem_linear|by left].
  - exists (LogAxis 1). split; [apply getitem_log|by right].
Qed.

(** C7.  A name outside ['linear'], ['log'] given as [x_axis_type] makes
    the construction fail with [KeyError] on that name; so does one given
    as [y_axis_type] when [x_axis_type] is recognized.  With two
    recognized names the construction succeeds, keeps the other
    arguments, and binds each axis to the singleton of that name. *)
Theorem canvas_axis_types (plot_width plot_height : Z)
    (x_range y_range : option (F * F)) (x_axis_type y_axis_type : string) :
  (recognized x_axis_type = false ->
     __init__ plot_width plot_height x_range y_range x_axis_type y_axis_type
       = Raise (KeyError x_axis_type)) /\
  (recognized x_axis_type = true -> recognized y_axis_type = false ->
     __init__ plot_width plot_height x_range y_range x_axis_type y_axis_type
       = Raise (KeyError y_axis_type)) /\
  (recognized x_axis_type = true -> recognized y_axis_type = true ->
     exists ax ay : Axis F,
       __init__ plot_width plot_height x_range y_range x_axis_type y_axis_type
         = Ok {| plot_width := plot_width; plot_height := plot_height;
                 x_range := x_range; y_range := y_range;
                 x_axis := ax; y_axis := ay |} /\
       (x_axis_type = "linear" /\ ax = LinearAxis 0 \/
        x_axis_type = "log" /\ ax = LogAxis 1) /\
       (y_axis_type = "linear" /\ ay = LinearAxis 0 \/
        y_axis_type = "log" /\ ay = LogAxis 1)).
Proof.
  unfold __init__. cbv zeta. rewrite !tuple_if_given_id. split; [|split].
  - intros Hx. by rewrite (getitem_unrecognized _ Hx).
  - intros (ax & -> & _)%getitem_recognized Hy.
    by rewrite (getitem_unrecognized _ Hy).
  - intros (ax & -> & Hax)%getitem_recognized (ay & -> & Hay)%getitem_recognized.
    by exists ax, ay.
Qed.

End CanvasInit.

Lemma canvas_axis_types_witness :
  recognized "bogus" = false /\
  __init__ (F:=expr) 600 600 None None "bogus" "linear" = Raise (KeyError "bogus").
Proof.
  assert (recognized "bogus" = false) as Hb by reflexivity.
  split; [exact Hb|].
  exact (proj1 (canvas_axis_types (F:=expr) 600 600 None None "bogus" "linear") Hb).
Defined.

Example canvas_linear_log :
  x_axis <$> (match __init__ (F:=expr) 600 600 None None "linear" "log" with
              | Ok c => Some c | Raise _ => None end) = Some (LinearAxis 0).
Proof.
  unfold __init__. cbv zeta. by rewrite getitem_linear, getitem_log.
Qed.

(* ===================================================================== *)
(** ** bypixel: validation before dispatch *)
(* ===================================================================== *)

Section OrchestratorProps.
Context {F : Type} {W : Collaborators F}.
Implicit Types (source : Source) (canvas : Canvas F) (glyph : Glyph)
  (summary : Summary) (dshape : DShape) (log : list call) (e : exn).

Lemma bypixel_discover_raises source canvas glyph summary log e :
  discover source = Raise e ->
  bypixel source canvas glyph summary log =
    (log ++ [call_discover source], Raise e).
Proof. intros Hd. unfold bypixel, invoke, mbind, M_bind. by rewrite Hd. Qed.

(** What a run of [bypixel] does on a source whose shape was inferred. *)
Lemma bypixel_run source canvas glyph summary log dshape :
  discover source = Ok dshape ->
  bypixel source canvas glyph summary log =
    if istabular dshape then
      let schema := measure dshape in
      let log1 := log ++ [call_discover source] in
      let log2 := log1 ++ [call_glyph_validate glyph schema] in
      let log3 := log2 ++ [call_summary_validate summary schema] in
      match glyph_validate glyph schema with
      | Raise e => (log2, Raise e)
      | Ok _ =>
          match summary_validate summary schema with
          | Raise e => (log3, Raise e)
          | Ok _ =>
              (log3 ++ [call_pipeline source schema canvas glyph summary],
               pipeline source schema canvas glyph summary)
          end
      end
    else (log ++ [call_discover source],
          Raise (ValueError "source must be tabular")).
Proof.
  intros Hd. unfold bypixel, invoke, raise, mbind, M_bind. rewrite Hd.
  destruct (istabular dshape); cbn [negb]; [|done].
  cbv zeta. destruct (glyph_validate _ _); [|done].
  by destruct (summary_validate _ _).
Qed.

Lemma dispatched_app log1 log2 :
  dispatched (log1 ++ log2) = dispatched log1 || dispatched log2.
Proof. apply existsb_app. Qed.

(** C6.  When the inferred shape of the source is not tabular, [bypixel]
    raises [ValueError("source must be tabular")] right after schema
    inference: no validation is run and the dispatcher is not called. *)
Theorem bypixel_not_tabular source canvas glyph summary dshape :
  discover source = Ok dshape -> istabular dshape = false ->
  bypixel source canvas glyph summary [] =
    ([call_discover source], Raise (ValueError "source must be tabular")) /\
  dispatched (bypixel source canvas glyph summary []).1 = false.
Proof.
  intros Hd Ht. rewrite (bypixel_run _ _ _ _ _ _ Hd), Ht. by split.
Qed.

(** C5.  On a tabular source: when [glyph.validate(schema)] raises,
    [bypixel] raises that same error, the summary is not validated and
    the dispatcher is not called; when the glyph passes and
    [summary.validate(schema)] raises, [bypixel] raises that error and the
    dispatcher is not called; when both pass, the calls are, in this
    order, schema inference, glyph validation, summary validation and the
    dispatch, whose outcome is [bypixel]'s; and the dispatcher is called
    only if both validations succeeded. *)
Theorem bypixel_validates_before_dispatch source canvas glyph summary dshape :
  discover source = Ok dshape -> istabular dshape = true ->
  let schema := measure dshape in
  let run := bypixel source canvas glyph summary [] in
  (forall e, glyph_validate glyph schema = Raise e ->
     run = ([call_discover source; call_glyph_validate glyph schema], Raise e)
     /\ dispatched run.1 = false) /\
  (forall e, is_ok (glyph_validate glyph schema) = true ->
     summary_validate summary schema = Raise e ->
     run = ([call_discover source; call_glyph_validate glyph schema;
             call_summary_validate summary schema], Raise e)
     /\ dispatched run.1 = false) /\
  (is_ok (glyph_validate glyph schema) = true ->
   is_ok (summary_validate summary schema) = true ->
     run = ([call_discover source; call_glyph_validate glyph schema;
             call_summary_validate summary schema;
             call_pipeline source schema canvas glyph summary],
            pipeline source schema canvas glyph summary)) /\
  (dispatched run.1 = true ->
     is_ok (glyph_validate glyph schema) = true /\
     is_ok (summary_validate summary schema) = true).
Proof.
  intros Hd Ht schema run. subst run.
  rewrite (bypixel_run _ _ _ _ _ _ Hd), Ht. cbv zeta. fold schema.
  destruct (glyph_validate glyph schema) as [[]|eg];
    destruct (summary_validate summary schema) as [[]|es];
    cbn [is_ok app fst]; repeat split; intros; simplify_eq; try done.
Qed.

(** Whatever the source, a dispatch means that the shape was inferred and
    tabular and that both validations passed. *)
Lemma bypixel_dispatch_only_if source canvas glyph summary :
  dispatched (bypixel source canvas glyph summary []).1 = true ->
  exists dshape,
    discover source = Ok dshape /\ istabular dshape = true /\
    is_ok (glyph_validate glyph (measure dshape)) = true /\
    is_ok (summary_validate summary (measure dshape)) = true.
Proof.
  destruct (discover source) as [dshape|e] eqn:Hd.
  - rewrite (bypixel_run _ _ _ _ _ _ Hd).
    destruct (istabular dshape) eqn:Ht; [|done]. cbv zeta.
    destruct (glyph_validate _ _) eqn:Hg; [|done].
    destruct (summary_validate _ _) eqn:Hs; [|done].
    intros _. exists dshape. by rewrite Hg, Hs.
  - by rewrite (bypixel_discover_raises _ _ _ _ _ _ Hd).
Qed.

(** [Canvas.points] is [bypixel] on the point glyph of the two columns. *)
Lemma points_bypixel (self : Canvas F) source (x y : Column) summary log :
  points self source x y summary log =
    bypixel source self (Point x y) summary log.
Proof. reflexivity. Qed.

End OrchestratorProps.

(** A scalar source: the run stops after schema inference. *)
Lemma bypixel_not_tabular_witness :
  bypixel (W:=demo_world) demo_scalar demo_canvas ("x", "y") "v" [] =
    ([call_discover (W:=demo_world) demo_scalar],
     Raise (ValueError "source must be tabular")) /\
  dispatched (bypixel (W:=demo_world) demo_scalar demo_canvas ("x", "y") "v" []).1
    = false.
Proof.
  exact (bypixel_not_tabular (W:=demo_world) demo_scalar demo_canvas ("x", "y") "v"
           demo_scalar eq_refl eq_refl).
Defined.

(** A point glyph on columns ["x"] and ["y"] against a table without
    ["x"]: the glyph's error comes out and the backend is not called. *)
Lemma bypixel_validates_before_dispatch_witness :
  bypixel (W:=demo_world) (demo_table ["y"; "v"]) demo_canvas ("x", "y") "v" [] =
    ([call_discover (W:=demo_world) (demo_table ["y"; "v"]);
      call_glyph_validate (W:=demo_world) ("x", "y") ["y"; "v"]],
     Raise (OtherError "missing column")) /\
  dispatched
    (bypixel (W:=demo_world) (demo_table ["y"; "v"]) demo_canvas ("x", "y") "v" []).1
    = false.
Proof.
  exact (proj1 (bypixel_validates_before_dispatch (W:=demo_world)
                  (demo_table ["y"; "v"]) demo_canvas ("x", "y") "v"
                  (demo_table ["y"; "v"]) eq_refl eq_refl)
               (OtherError "missing column") eq_refl).
Defined.

Example bypixel_dispatches :
  bypixel (W:=demo_world) (demo_table ["x"; "y"; "v"]) demo_canvas ("x", "y") "v" [] =
    ([call_discover (W:=demo_world) (demo_table ["x"; "y"; "v"]);
      call_glyph_validate (W:=demo_world) ("x", "y") ["x"; "y"; "v"];
      call_summary_validate (W:=demo_world) "v" ["x"; "y"; "v"];
      call_pipeline (W:=demo_world) (demo_table ["x"; "y"; "v"]) ["x"; "y"; "v"]
        demo_canvas ("x", "y") "v"],
     Ok 3%nat).
Proof. reflexivity. Qed.

(* ===================================================================== *)
(** * Further properties *)
(* ===================================================================== *)

(* ===================================================================== *)
(** ** binary64: every outcome, the one-pixel axis, an infinite width *)
(* ===================================================================== *)

Section Binary64Edges.
Implicit Types (self : Axis float) (x y start : float) (n : Z).

Lemma is_finite_eq (x : float) :
  is_finite x =
    match Prim2SF x with
    | S754_zero _ | S754_finite _ _ _ => true
    | _ => false
    end.
Proof.
  unfold is_finite, is_nan, is_infinity.
  rewrite !FloatAxioms.eqb_spec, abs_spec.
  change (Prim2SF infinity) with (S754_infinity false).
  destruct (Prim2SF x) as [s|[]| |s m e]; try done.
  unfold SFeqb at 1. by rewrite SFcompare_refl_finite.
Qed.

Lemma is_infinity_eq (x : float) :
  is_infinity x =
    match Prim2SF x with
    | S754_infinity _ => true
    | _ => false
    end.
Proof.
  unfold is_infinity. rewrite FloatAxioms.eqb_spec, abs_spec.
  change (Prim2SF infinity) with (S754_infinity false).
  by destruct (Prim2SF x) as [s|[]| |s m e].
Qed.

(** A difference that is [== 0.0] has a finite right operand. *)
Lemma float_sub_zero_finite x y :
  PrimFloat.eqb (x - y) 0 = true -> is_finite y = true.
Proof.
  rewrite eqb_zero_spec, sub_spec, is_finite_eq. unfold SF64sub.
  by destruct (Prim2SF x) as [[]|[]| |sx mx ex], (Prim2SF y) as [[]|[]| |sy my ey].
Qed.

(** The width is [== 0.0] exactly when the ends are [==] and finite. *)
Lemma width_zero_iff x y :
  PrimFloat.eqb (x - y) 0 = PrimFloat.eqb x y && is_finite y.
Proof.
  destruct (PrimFloat.eqb (x - y) 0) eqn:Hw.
  - by rewrite (float_sub_zero_eq _ _ Hw), (float_sub_zero_finite _ _ Hw).
  - symmetry. apply not_true_is_false. intros [Heq Hfin]%andb_prop.
    pose proof (float_eq_sub_zero _ _ Hfin Heq). congruence.
Qed.

(** In binary64 and for float bounds, every outcome of
    [scale_and_translation]: [OverflowError] when [n - 1] is too large to
    convert to a float; otherwise [ZeroDivisionError] when the two mapped
    ends are equal ([==]) and finite; otherwise, NaN and infinite ends
    included, the pair [(s, t)] of the two formulas. *)
Theorem scale_and_translation_outcome self start (end_ : float) n :
  scale_and_translation self (start, end_) n =
    if is_infinity (float_of_int (n - 1)) then Raise OverflowError
    else if (mapper self end_ == mapper self start)%num
            && is_finite (mapper self start)
    then Raise ZeroDivisionError
    else Ok (float_of_int (n - 1) / (mapper self end_ - mapper self start),
             - mapper self start *
               (float_of_int (n - 1) / (mapper self end_ - mapper self start)))%float.
Proof.
  destruct (is_infinity (float_of_int (n - 1))) eqn:Hn.
  - by apply scale_and_translation_cannot_convert.
  - pose proof (width_zero_iff (mapper self end_) (mapper self start)) as Hw.
    change ((mapper self end_ == mapper self start)%num)
      with (PrimFloat.eqb (mapper self end_) (mapper self start)).
    destruct (PrimFloat.eqb (mapper self end_) (mapper self start)
              && is_finite (mapper self start)).
    + by apply scale_and_translation_divides_by_zero.
    + by apply scale_and_translation_returns.
Qed.

(** The quotient that [compute_index] forms for pixel [0] of a one-pixel
    axis: the scale [0 / w] is a zero or a NaN, and so is the translation,
    which leaves [0 / 0] or a NaN. *)
Lemma one_pixel_quotient (w ms : float) :
  PrimFloat.eqb w 0 = false ->
  ((0 - - ms * (0 / w)) / (0 / w))%float = nan.
Proof.
  rewrite eqb_zero_spec. intros Hw. apply Prim2SF_inj.
  rewrite div_spec, sub_spec, mul_spec, opp_spec, div_spec.
  change (Prim2SF 0) with (S754_zero false). change (Prim2SF nan) with S754_nan.
  by destruct (Prim2SF w) as [sw|[]| |[] mw ew], (Prim2SF ms) as [[]|[]| |[] mm em].
Qed.

(** In binary64, for a one-pixel axis ([n = 1]) and mapped ends that
    differ, [scale_and_translation] returns and the index computed from its
    result is the single value [inverse_mapper(nan)]: on the linear axis,
    NaN. *)
Theorem one_pixel_index_is_nan self start (end_ : float) :
  (mapper self end_ != mapper self start)%num = true ->
  exists st,
    scale_and_translation self (start, end_) 1 = Ok st /\
    compute_index self 1 st = [inverse_mapper self nan].
Proof.
  intros Hne%(mapped_width_nonzero (F:=float)). eexists. split.
  - by apply (scale_and_translation_returns self start end_ 1).
  - change ([inverse_mapper self
               ((0 - - mapper self start *
                       (0 / (mapper self end_ - mapper self start)))
                / (0 / (mapper self end_ - mapper self start)))%float]
            = [inverse_mapper self nan]).
    by rewrite (one_pixel_quotient _ _ Hne).
Qed.

(** The quotient for pixel [0] when the width is infinite: the scale
    [a / w] is a zero or a NaN whatever [a] is, and so is the translation. *)
Lemma infinite_width_quotient (a w ms : float) :
  is_infinity w = true ->
  ((0 - - ms * (a / w)) / (a / w))%float = nan.
Proof.
  rewrite is_infinity_eq. intros Hw. apply Prim2SF_inj.
  rewrite div_spec, sub_spec, mul_spec, opp_spec, div_spec.
  change (Prim2SF 0) with (S754_zero false). change (Prim2SF nan) with S754_nan.
  by destruct (Prim2SF w) as [sw|[]| |[] mw ew],
       (Prim2SF a) as [[]|[]| |[] ma ea],
       (Prim2SF ms) as [[]|[]| |[] mm em].
Qed.

Lemma infinite_not_zero (w : float) :
  is_infinity w = true -> PrimFloat.eqb w 0 = false.
Proof.
  rewrite is_infinity_eq, eqb_zero_spec. by destruct (Prim2SF w).
Qed.

(** In binary64, when the mapped width [mapper(end) - mapper(start)] is
    infinite (the difference of two finite ends overflows, or an end is
    infinite), then for every pixel count [n >= 1] whose [n - 1] converts,
    [scale_and_translation] returns and the first coordinate of the index
    computed from its result is [inverse_mapper(nan)]: on the linear axis,
    NaN instead of the start of the range. *)
Theorem infinite_width_index_starts_with_nan self start (end_ : float) n :
  is_infinity (mapper self end_ - mapper self start) = true ->
  is_infinity (float_of_int (n - 1)) = false -> (1 <= n)%Z ->
  exists st,
    scale_and_translation self (start, end_) n = Ok st /\
    compute_index self n st !! 0%nat = Some (inverse_mapper self nan).
Proof.
  intros Hw Hn Hn1. eexists. split.
  - apply scale_and_translation_returns; [done|]. by apply infinite_not_zero.
  - rewrite (lookup_compute_index self n _ _ 0) by lia.
    change (float_of_int 0) with 0%float.
    by rewrite <- (infinite_width_quotient (float_of_int (n - 1)) _
                   (mapper self start) Hw).
Qed.

End Binary64Edges.

Lemma one_pixel_index_is_nan_witness :
  (mapper (LinearAxis 0) 9%float != mapper (LinearAxis 0) 0%float)%num = true /\
  exists st,
    scale_and_translation (LinearAxis 0) (0, 9)%float 1 = Ok st /\
    compute_index (LinearAxis 0) 1 st = [inverse_mapper (LinearAxis 0) nan].
Proof.
  split; [reflexivity|].
  exact (one_pixel_index_is_nan (LinearAxis 0) 0%float 9%float eq_refl).
Defined.

Lemma infinite_width_index_starts_with_nan_witness :
  is_infinity (mapper (LinearAxis 0) 0x1p1023 - mapper (LinearAxis 0) (-0x1p1023))%float
    = true /\
  is_infinity (float_of_int (600 - 1)) = false /\ (1 <= 600)%Z /\
  exists st,
    scale_and_translation (LinearAxis 0) (-0x1p1023, 0x1p1023)%float 600 = Ok st /\
    compute_index (LinearAxis 0) 600 st !! 0%nat =
      Some (inverse_mapper (LinearAxis 0) nan).
Proof.
  assert (1 <= 600)%Z as Hn by lia.
  split; [reflexivity|]. split; [reflexivity|]. split; [exact Hn|].
  exact (infinite_width_index_starts_with_nan (LinearAxis 0)
           (-0x1p1023)%float 0x1p1023%float 600 eq_refl eq_refl Hn).
Defined.

(* ===================================================================== *)
(** ** Axis equality as a relation; canvases and their axes *)
(* ===================================================================== *)

(** [==] on axis objects is reflexive, symmetric and transitive, and
    [a != a] never holds. *)
Theorem axis_eq_equivalence {F : Type} (a b c : Axis F) :
  __eq__ a a = true /\
  __ne__ a a = false /\
  __eq__ a b = __eq__ b a /\
  (__eq__ a b = true -> __eq__ b c = true -> __eq__ a c = true).
Proof.
  split; [apply eq_refl_axis|].
  split; [unfold __ne__; by rewrite eq_refl_axis|].
  split; [apply eq_sym_axis|apply eq_trans_axis].
Qed.

Section CanvasAxes.
Context {F : Type} `{Elementary F}.

(** A successful lookup in the table is one of its two entries. *)
Lemma getitem_returned (name : string) (axis : Axis F) :
  getitem _axis_lookup name = Ok axis ->
  name = "linear" /\ axis = LinearAxis 0 \/ name = "log" /\ axis = LogAxis 1.
Proof.
  destruct (recognized name) eqn:Hr.
  - apply getitem_recognized in Hr as (axis' & -> & Hcases).
    by intros [= <-].
  - by rewrite (getitem_unrecognized _ Hr).
Qed.

Lemma init_returned (plot_width plot_height : Z)
    (x_range y_range : option (F * F)) (x_axis_type y_axis_type : string)
    (canvas : Canvas F) :
  __init__ plot_width plot_height x_range y_range x_axis_type y_axis_type
    = Ok canvas ->
  getitem _axis_lookup x_axis_type = Ok (x_axis canvas) /\
  getitem _axis_lookup y_axis_type = Ok (y_axis canvas).
Proof.
  unfold __init__. cbv zeta.
  destruct (getitem _axis_lookup x_axis_type) as [ax|e]; [|done].
  destruct (getitem _axis_lookup y_axis_type) as [ay|e]; [|done].
  by intros [= <-].
Qed.

Lemma looked_up_eq_iff (name name' : string) (axis axis' : Axis F) :
  getitem _axis_lookup name = Ok axis ->
  getitem _axis_lookup name' = Ok axis' ->
  __eq__ axis axis' = true <-> name = name'.
Proof.
  intros [[-> ->]|[-> ->]]%getitem_returned [[-> ->]|[-> ->]]%getitem_returned;
    rewrite eq_iff_same_type; cbn; split; done.
Qed.

(** The axes of constructed canvases compare as their axis-type names do:
    across two canvases, and between the two axes of one canvas, the axes
    are [==] exactly when the names given to [Canvas] are the same. *)
Theorem canvas_axes_eq_iff_names
    (w h w' h' : Z) (xr yr xr' yr' : option (F * F))
    (x_axis_type y_axis_type x_axis_type' y_axis_type' : string)
    (canvas canvas' : Canvas F) :
  __init__ w h xr yr x_axis_type y_axis_type = Ok canvas ->
  __init__ w' h' xr' yr' x_axis_type' y_axis_type' = Ok canvas' ->
  (__eq__ (x_axis canvas) (x_axis canvas') = true <-> x_axis_type = x_axis_type') /\
  (__eq__ (y_axis canvas) (y_axis canvas') = true <-> y_axis_type = y_axis_type') /\
  (__eq__ (x_axis canvas) (y_axis canvas) = true <-> x_axis_type = y_axis_type).
Proof.
  intros [Hx Hy]%init_returned [Hx' Hy']%init_returned.
  split; [by apply looked_up_eq_iff|].
  split; by apply looked_up_eq_iff.
Qed.

End CanvasAxes.

Lemma demo_init_linear_log :
  __init__ (F:=expr) 600 400 None None "linear" "log" =
    Ok {| plot_width := 600; plot_height := 400; x_range := None; y_range := None;
          x_axis := LinearAxis 0; y_axis := LogAxis 1 |}.
Proof. unfold __init__. cbv zeta. by rewrite getitem_linear, getitem_log. Qed.

Lemma demo_init_log_log :
  __init__ (F:=expr) 10 10 (Some (num 1, num 100)) None "log" "log" =
    Ok {| plot_width := 10; plot_height := 10;
          x_range := Some (num 1, num 100); y_range := None;
          x_axis := LogAxis 1; y_axis := LogAxis 1 |}.
Proof. unfold __init__. cbv zeta. by rewrite getitem_log. Qed.

Lemma canvas_axes_eq_iff_names_witness :
  (__eq__ (F:=expr) (LinearAxis 0) (LogAxis 1) = true <-> "linear" = "log") /\
  (__eq__ (F:=expr) (LogAxis 1) (LogAxis 1) = true <-> "log" = "log") /\
  (__eq__ (F:=expr) (LinearAxis 0) (LogAxis 1) = true <-> "linear" = "log").
Proof.
  exact (canvas_axes_eq_iff_names 600 400 10 10 None None
           (Some (num 1, num 100)) None
           "linear" "log" "log" "log" _ _ demo_init_linear_log demo_init_log_log).
Defined.

(* ===================================================================== *)
(** ** bypixel and Canvas.points: what is called, and when *)
(* ===================================================================== *)

Section OrchestratorCalls.
Context {F : Type} {W : Collaborators F}.
Implicit Types (source : Source) (canvas : Canvas F) (glyph : Glyph)
  (summary : Summary) (dshape : DShape) (e : exn).

(** When schema inference itself raises, [bypixel] raises that error,
    having called nothing else: no validation and no dispatch. *)
Theorem bypixel_inference_error source canvas glyph summary e :
  discover source = Raise e ->
  bypixel source canvas glyph summary [] = ([call_discover source], Raise e) /\
  dispatched (bypixel source canvas glyph summary []).1 = false.
Proof.
  intros Hd. by rewrite (bypixel_discover_raises _ _ _ _ [] _ Hd).
Qed.

(** Of the calls that can raise (schema inference, the two validations and
    the dispatcher; [istabular] and the [measure] attribute are not among
    them), [bypixel] makes an initial segment of the sequence discover,
    [glyph.validate], [summary.validate], dispatch: schema inference always,
    each call at most once and in this order, the validations and the
    dispatch on the schema of the inferred shape and with the source,
    canvas, glyph and summary it was given. *)
Theorem bypixel_call_order source canvas glyph summary :
  let calls := (bypixel source canvas glyph summary []).1 in
  calls = [call_discover source] \/
  exists dshape,
    discover source = Ok dshape /\
    (calls = [call_discover source;
              call_glyph_validate glyph (measure dshape)] \/
     calls = [call_discover source;
              call_glyph_validate glyph (measure dshape);
              call_summary_validate summary (measure dshape)] \/
     calls = [call_discover source;
              call_glyph_validate glyph (measure dshape);
              call_summary_validate summary (measure dshape);
              call_pipeline source (measure dshape) canvas glyph summary]).
Proof.
  cbv zeta. destruct (discover source) as [dshape|e] eqn:Hd.
  - rewrite (bypixel_run _ _ _ _ _ _ Hd).
    destruct (istabular dshape); [|by left].
    right. exists dshape. split; [done|]. cbv zeta.
    destruct (glyph_validate _ _); [|by left].
    destruct (summary_validate _ _); [by right; right|by right; left].
  - rewrite (bypixel_discover_raises _ _ _ _ [] _ Hd). by left.
Qed.

(** A run that does not reach the dispatcher does not depend on the
    canvas: with any other canvas the calls and the error are the same. *)
Theorem bypixel_failure_ignores_canvas source canvas canvas' glyph summary :
  dispatched (bypixel source canvas glyph summary []).1 = false ->
  bypixel source canvas' glyph summary [] = bypixel source canvas glyph summary [].
Proof.
  destruct (discover source) as [dshape|e] eqn:Hd.
  - rewrite !(bypixel_run _ _ _ _ _ _ Hd).
    destruct (istabular dshape); [|done]. cbv zeta.
    destruct (glyph_validate _ _); [|done].
    by destruct (summary_validate _ _).
  - by rewrite !(bypixel_discover_raises _ _ _ _ [] _ Hd).
Qed.

(** [Canvas.points] on a tabular source whose schema passes both
    validations dispatches once, with the canvas itself and the point glyph
    of the two columns, and returns what the backend returns. *)
Theorem points_dispatches_point_glyph (self : Canvas F) source (x y : Column)
    (agg : Summary) dshape :
  discover source = Ok dshape -> istabular dshape = true ->
  is_ok (glyph_validate (Point x y) (measure dshape)) = true ->
  is_ok (summary_validate agg (measure dshape)) = true ->
  points self source x y agg [] =
    ([call_discover source;
      call_glyph_validate (Point x y) (measure dshape);
      call_summary_validate agg (measure dshape);
      call_pipeline source (measure dshape) self (Point x y) agg],
     pipeline source (measure dshape) self (Point x y) agg).
Proof.
  intros Hd Ht Hg Hs. unfold points.
  rewrite (bypixel_run _ _ _ _ _ _ Hd), Ht. cbv zeta.
  destruct (glyph_validate _ _); [|done].
  by destruct (summary_validate _ _).
Qed.

End OrchestratorCalls.

(** [discover] failing on every source: a world without schema inference. *)
Definition blind_world : Collaborators float := {|
  Source := demo_source;
  DShape := demo_source;
  Schema := list string;
  Column := string;
  Glyph := string * string;
  Summary := string;
  Agg := nat;
  discover := fun _ => Raise (OtherError "NotImplementedError");
  istabular := fun _ => true;
  measure := fun _ => [];
  glyph_validate := fun _ _ => Ok tt;
  summary_validate := fun _ _ => Ok tt;
  Point := fun x y => (x, y);
  pipeline := fun _ schema _ _ _ => Ok (length schema)
|}.

Lemma bypixel_inference_error_witness :
  bypixel (W:=blind_world) demo_scalar demo_canvas ("x", "y") "v" [] =
    ([call_discover (W:=blind_world) demo_scalar],
     Raise (OtherError "NotImplementedError")) /\
  dispatched (bypixel (W:=blind_world) demo_scalar demo_canvas ("x", "y") "v" []).1
    = false.
Proof.
  exact (bypixel_inference_error (W:=blind_world) demo_scalar demo_canvas
           ("x", "y") "v" (OtherError "NotImplementedError") eq_refl).
Defined.

Lemma bypixel_failure_ignores_canvas_witness :
  bypixel (W:=demo_world) (demo_table ["x"; "y"])
    {| plot_width := 3; plot_height := 4; x_range := None; y_range := None;
       x_axis := LinearAxis 0; y_axis := LinearAxis 0 |} ("x", "y") "v" [] =
  bypixel (W:=demo_world) (demo_table ["x"; "y"]) demo_canvas ("x", "y") "v" [].
Proof.
  exact (bypixel_failure_ignores_canvas (W:=demo_world) (demo_table ["x"; "y"])
           demo_canvas _ ("x", "y") "v" eq_refl).
Defined.

Lemma points_dispatches_point_glyph_witness :
  points (W:=demo_world) demo_canvas (demo_table ["x"; "y"; "v"]) "x" "y" "v" [] =
    ([call_discover (W:=demo_world) (demo_table ["x"; "y"; "v"]);
      call_glyph_validate (W:=demo_world) ("x", "y") ["x"; "y"; "v"];
      call_summary_validate (W:=demo_world) "v" ["x"; "y"; "v"];
      call_pipeline (W:=demo_world) (demo_table ["x"; "y"; "v"]) ["x"; "y"; "v"]
        demo_canvas ("x", "y") "v"],
     Ok 3%nat).
Proof.
  exact (points_dispatches_point_glyph (W:=demo_world) demo_canvas
           (demo_table ["x"; "y"; "v"]) "x" "y" "v" (demo_table ["x"; "y"; "v"])
           eq_refl eq_refl eq_refl eq_refl).
Defined.

(* ===================================================================== *)
(** ** Empty indexes, shared axis objects *)
(* ===================================================================== *)

(** In any arithmetic, the index is empty exactly when the pixel count is
    zero or negative: no error is raised for such a count. *)
Theorem compute_index_empty_iff {F : Type} `{Number F}
    (self : Axis F) (n : Z) (st : F * F) :
  compute_index self n st = [] <-> (n <= 0)%Z.
Proof.
  rewrite <- length_zero_iff_nil, length_compute_index. lia.
Qed.

(** Canvases do not get axis objects of their own: an axis of a constructed
    canvas is one of the two objects of the module-level table, so two
    canvases built with the same axis-type name hold the very same object. *)
Theorem canvas_axes_shared {F : Type} `{Elementary F}
    (w h w' h' : Z) (xr yr xr' yr' : option (F * F))
    (x_axis_type y_axis_type y_axis_type' : string) (canvas canvas' : Canvas F) :
  __init__ w h xr yr x_axis_type y_axis_type = Ok canvas ->
  __init__ w' h' xr' yr' x_axis_type y_axis_type' = Ok canvas' ->
  x_axis canvas = x_axis canvas' /\
  py_id (x_axis canvas) = py_id (x_axis canvas') /\
  (x_axis canvas = LinearAxis 0 \/ x_axis canvas = LogAxis 1).
Proof.
  intros [Hx _]%init_returned [Hx' _]%init_returned.
  rewrite Hx in Hx'. injection Hx' as <-.
  split; [done|]. split; [done|].
  apply getitem_returned in Hx as [[_ ->]|[_ ->]]; [by left|by right].
Qed.

Lemma canvas_axes_shared_witness :
  LogAxis (F:=expr) 1 = LogAxis 1 /\
  py_id (LogAxis (F:=expr) 1) = py_id (LogAxis (F:=expr) 1) /\
  (LogAxis (F:=expr) 1 = LinearAxis 0 \/ LogAxis (F:=expr) 1 = LogAxis 1).
Proof.
  exact (canvas_axes_shared 10 10 10 10
           (Some (num 1, num 100)) None (Some (num 1, num 100)) None
           "log" "log" "log" _ _ demo_init_log_log demo_init_log_log).
Defined.
